(** * A shallow embedding of logrus-prefixed-formatter (formatter.go)

    Strings are byte strings ([string] of [ascii]), as Go strings are.
    Go maps become [gmap string value]; the order in which [range] yields
    the keys of a map is unspecified in Go, so it is an explicit input
    ([iter]) of [Format].  A call that panics returns nothing ([fr_ret]
    is None) but keeps the updates it made before. *)

From Stdlib Require Import Ascii String ZArith Lia.
From stdpp Require Import base gmap strings list sorting.

Local Open Scope Z_scope.

(* ------------------------------------------------------------------ *)
(** ** External libraries: fmt, time, unicode/utf8, mgutz/ansi *)

(** The behaviour of the Go libraries the formatter calls and that are
    not part of this repository.  Every theorem quantifies over it. *)
Record GoRuntime := {
  (** [fmt.Sprintf("%q", s)], i.e. [strconv.Quote(s)] *)
  fmt_q : string -> string;
  (** [t.Format(layout)] for the instant [t] *)
  time_Format : Z -> string -> string;
  (** [utf8.RuneCountInString], used by fmt for widths *)
  RuneCountInString : string -> nat;
  (** the escape sequences [ansi.LightBlack] and [ansi.Reset] *)
  ansi_LightBlack : string;
  ansi_Reset : string
}.

(** A [func(string) string] produced by [ansi.ColorFunc]: how it styles
    a text, and what fmt prints when the function value itself is given
    to the [%s] verb (["%!s(func(string) string=0x...)"]). *)
Record ColorFunc := {
  cf_apply : string -> string;
  cf_verb_s : string
}.

Record compiledColorScheme := {
  InfoLevelColor : ColorFunc;
  WarnLevelColor : ColorFunc;
  ErrorLevelColor : ColorFunc;
  FatalLevelColor : ColorFunc;
  PanicLevelColor : ColorFunc;
  DebugLevelColor : ColorFunc;
  PrefixColor : ColorFunc;
  TimestampColor : ColorFunc
}.

(* ------------------------------------------------------------------ *)
(** ** logrus: levels, field values, entries *)

(** [logrus.Level] is a [uint32]. *)
Definition Level := N.
Definition PanicLevel : Level := 0%N.
Definition FatalLevel : Level := 1%N.
Definition ErrorLevel : Level := 2%N.
Definition WarnLevel : Level := 3%N.
Definition InfoLevel : Level := 4%N.
Definition DebugLevel : Level := 5%N.

(** [logrus.Level.String] (from the logrus library). *)
Definition Level_String (level : Level) : string :=
  if N.eqb level DebugLevel then "debug"
  else if N.eqb level InfoLevel then "info"
  else if N.eqb level WarnLevel then "warning"
  else if N.eqb level ErrorLevel then "error"
  else if N.eqb level FatalLevel then "fatal"
  else if N.eqb level PanicLevel then "panic"
  else "unknown".

(** The dynamic value stored in a [logrus.Fields] entry ([interface{}]):
    a string, an error (with its [Error()] text), the nil interface, or any
    other value, given by what fmt prints for it under [%v] and [%+v]. *)
Inductive value :=
| VString (s : string)
| VError (msg : string)
| VNil
| VOther (v plusv : string).

(** [fmt.Sprint(v)] / [%v] *)
Definition fmt_v (v : value) : string :=
  match v with
  | VString s => s
  | VError m => m
  | VNil => "<nil>"
  | VOther pv _ => pv
  end.

(** [%+v] *)
Definition fmt_plusv (v : value) : string :=
  match v with
  | VString s => s
  | VError m => m
  | VNil => "<nil>"
  | VOther _ pv => pv
  end.

(** A [logrus.Entry], as far as the formatter reads it.  [Logger] is
    [Some t] when the entry has a logger, [t] being
    [logrus.IsTerminal(entry.Logger.Out)]; [Buffer] is the content of
    [entry.Buffer] when it is non-nil. *)
Record Entry := {
  Time : Z;
  ELevel : Level;
  Message : string;
  Data : gmap string value;
  Buffer : option string;
  Logger : option bool
}.

(** [entry.Data[k]]: the zero value (nil) for an absent key. *)
Definition data_get (data : gmap string value) (k : string) : value :=
  default VNil (data !! k).

(** [logrus.DefaultTimestampFormat] ([time.RFC3339]). *)
Definition DefaultTimestampFormat : string := "2006-01-02T15:04:05Z07:00".

(* ------------------------------------------------------------------ *)
(** ** The formatter *)

(** [TextFormatter].  [ShortTimestamp] is the flag [printColored] reads
    as [f.ShortTimestamp]; the struct of the source does not declare it,
    and nothing else reads or sets it.  [once_done] is the state of the
    embedded [sync.Once]. *)
Record TextFormatter := {
  ForceColors : bool;
  DisableColors : bool;
  DisableTimestamp : bool;
  FullTimestamp : bool;
  ShortTimestamp : bool;
  TimestampFormat : string;
  DisableSorting : bool;
  QuoteEmptyFields : bool;
  QuoteCharacter : string;
  SpacePadding : Z;
  colorScheme : option compiledColorScheme;
  isTerminal : bool;
  once_done : bool
}.

(** The one-byte string made of a double quote. *)
Definition dquote : string := String (ascii_of_nat 34) EmptyString.

(** [(f *TextFormatter) init(entry)] *)
Definition init (f : TextFormatter) (entry : Entry) : TextFormatter :=
  let qc := if Nat.eqb (String.length (QuoteCharacter f)) 0
            then dquote else QuoteCharacter f in
  let term := match Logger entry with
              | Some t => t
              | None => isTerminal f
              end in
  {| ForceColors := ForceColors f; DisableColors := DisableColors f;
     DisableTimestamp := DisableTimestamp f; FullTimestamp := FullTimestamp f;
     ShortTimestamp := ShortTimestamp f; TimestampFormat := TimestampFormat f;
     DisableSorting := DisableSorting f; QuoteEmptyFields := QuoteEmptyFields f;
     QuoteCharacter := qc; SpacePadding := SpacePadding f;
     colorScheme := colorScheme f; isTerminal := term; once_done := once_done f |}.

(** [f.Do(func() { f.init(entry) })] *)
Definition once_Do_init (f : TextFormatter) (entry : Entry) : TextFormatter :=
  if once_done f then f
  else let f' := init f entry in
  {| ForceColors := ForceColors f'; DisableColors := DisableColors f';
     DisableTimestamp := DisableTimestamp f'; FullTimestamp := FullTimestamp f';
     ShortTimestamp := ShortTimestamp f'; TimestampFormat := TimestampFormat f';
     DisableSorting := DisableSorting f'; QuoteEmptyFields := QuoteEmptyFields f';
     QuoteCharacter := QuoteCharacter f'; SpacePadding := SpacePadding f';
     colorScheme := colorScheme f'; isTerminal := isTerminal f'; once_done := true |}.

(* ------------------------------------------------------------------ *)
(** ** Byte-level helpers *)

Definition byte (n : nat) : ascii := ascii_of_nat n.

Definition bytes_string (l : list nat) : string :=
  fold_right (fun n s => String (byte n) s) EmptyString l.

Definition in_range (c : ascii) (lo hi : nat) : bool :=
  Nat.leb lo (nat_of_ascii c) && Nat.leb (nat_of_ascii c) hi.

(** [(f *TextFormatter) needsQuoting(text)].  The source ranges over the
    runes of [text]; a rune is in the allowed set exactly when it is one
    ASCII byte of that set, and every byte of a multi-byte or invalid
    sequence is >= 0x80, so the test is the same byte by byte. *)
Fixpoint has_unquotable (text : string) : bool :=
  match text with
  | EmptyString => false
  | String ch rest =>
      if negb (in_range ch 97 122 || in_range ch 65 90 || in_range ch 48 57 ||
               Ascii.eqb ch "-"%char || Ascii.eqb ch "."%char)
      then true
      else has_unquotable rest
  end.

Definition needsQuoting (f : TextFormatter) (text : string) : bool :=
  if QuoteEmptyFields f && Nat.eqb (String.length text) 0 then true
  else has_unquotable text.

(** [unicode.IsSpace] runes, UTF-8 encoded: the ASCII white space, U+0085,
    U+00A0, U+1680, U+2000..U+200A, U+2028, U+2029, U+202F, U+205F,
    U+3000. *)
Definition space_encodings : list string :=
  map bytes_string
    ([[9]; [10]; [11]; [12]; [13]; [32]; [194; 133]; [194; 160];
      [225; 154; 128]]%nat
     ++ map (fun k => [226; 128; 128 + k]%nat) (seq 0 11)
     ++ [[226; 128; 168]; [226; 128; 169]; [226; 128; 175];
         [226; 129; 159]; [227; 128; 128]])%nat.

Definition str_rev (s : string) : string := String.rev s.

Definition is_suffix (p s : string) : bool :=
  String.prefix (str_rev p) (str_rev s).

Fixpoint trim_left_go (fuel : nat) (s : string) : string :=
  match fuel with
  | O => s
  | S fuel =>
      match List.find (fun p => String.prefix p s) space_encodings with
      | Some p => trim_left_go fuel
                    (substring (String.length p)
                       (String.length s - String.length p) s)
      | None => s
      end
  end.

Fixpoint trim_right_go (fuel : nat) (s : string) : string :=
  match fuel with
  | O => s
  | S fuel =>
      match List.find (fun p => is_suffix p s) space_encodings with
      | Some p => trim_right_go fuel
                    (substring 0 (String.length s - String.length p) s)
      | None => s
      end
  end.

(** [strings.TrimSpace] = [TrimRightFunc(TrimLeftFunc(s, IsSpace), IsSpace)] *)
Definition TrimSpace (s : string) : string :=
  let l := trim_left_go (String.length s) s in
  trim_right_go (String.length l) l.

(* ------------------------------------------------------------------ *)
(** ** extractPrefix *)

(** Matching [^\[(.*?)\]] (RE2 syntax, [.] does not match a newline):
    after the leading [\[], the lazy [.*?] stops at the first [\]], and
    the match fails when a newline or the end of the text comes first.
    [scan_close t] is the length of the captured group. *)
Fixpoint scan_close (t : string) : option nat :=
  match t with
  | EmptyString => None
  | String c t' =>
      if Ascii.eqb c "]"%char then Some O
      else if Ascii.eqb c (byte 10) then None
      else option_map S (scan_close t')
  end.

(** [regex.FindString(msg)] (None: no match) *)
Definition regex_FindString (msg : string) : option string :=
  match msg with
  | String c t =>
      if Ascii.eqb c "["%char then
        match scan_close t with
        | Some i => Some (String "["%char (substring 0 i t +:+ "]"))
        | None => None
        end
      else None
  | EmptyString => None
  end.

(** [regex.MatchString(msg)] *)
Definition regex_MatchString (msg : string) : bool :=
  match regex_FindString msg with Some _ => true | None => false end.

(** [extractPrefix(msg)] *)
Definition extractPrefix (msg : string) : string * string :=
  if regex_MatchString msg then
    let match_ := default EmptyString (regex_FindString msg) in
    (substring 1 (String.length match_ - 1 - 1) match_,
     TrimSpace (substring (String.length match_)
                  (String.length msg - String.length match_) msg))
  else (EmptyString, msg).

(* ------------------------------------------------------------------ *)
(** ** prefixFieldClashes *)

(** [prefixFieldClashes(data)]: the three updates of the shared map, in
    the order of the source. *)
Definition clash (src dst : string) (data : gmap string value)
  : gmap string value :=
  match data !! src with
  | Some t => <[dst := t]> data
  | None => data
  end.

Definition prefixFieldClashes (data : gmap string value) : gmap string value :=
  clash "level" "fields.level"
    (clash "msg" "fields.msg" (clash "time" "fields.time" data)).

(* ------------------------------------------------------------------ *)
(** ** fmt verbs *)

Fixpoint dec_go (fuel : nat) (n : N) (acc : string) : string :=
  match fuel with
  | O => acc
  | S k =>
      let acc' := String (byte (48 + N.to_nat (N.modulo n 10))) acc in
      if N.ltb n 10 then acc' else dec_go k (N.div n 10) acc'
  end.

(** The decimal digits of [n]. *)
Definition N_dec (n : N) : string := dec_go (S (N.size_nat n)) n EmptyString.

Definition zero_pad (w : nat) (s : string) : string :=
  String.concat EmptyString (List.repeat "0" (w - String.length s)) +:+ s.

(** [%04d] of an [int]: the sign takes one of the four places. *)
Definition fmt_04d (z : Z) : string :=
  if z <? 0 then "-" +:+ zero_pad 3 (N_dec (Z.to_N (- z)))
  else zero_pad 4 (N_dec (Z.to_N z)).

Definition spaces (n : nat) : string :=
  String.concat EmptyString (List.repeat " " n).

(** Concatenation of a list of strings. *)
Definition str_concat (l : list string) : string :=
  fold_right String.append EmptyString l.

Definition newline : string := bytes_string [10%nat].

(** [strings.ToUpper], on the ASCII level names it is applied to. *)
Fixpoint ToUpper (s : string) : string :=
  match s with
  | EmptyString => EmptyString
  | String c s' =>
      String (if in_range c 97 122 then byte (nat_of_ascii c - 32) else c)
             (ToUpper s')
  end.

(** [sort.Strings]: ascending byte-wise order.  The keys of a map are
    distinct, so every correct sort gives the same list. *)
Definition sort_Strings (keys : list string) : list string :=
  merge_sort String.le keys.

Section Render.

Variable rt : GoRuntime.

(** [%5s] (and [%+5s]: the plus flag does nothing for strings) *)
Definition pad_left (w : nat) (s : string) : string :=
  spaces (w - RuneCountInString rt s) +:+ s.

(** [%-Ns] *)
Definition pad_right (w : nat) (s : string) : string :=
  s +:+ spaces (w - RuneCountInString rt s).

(** [miniTS()], [since_base] being [time.Since(baseTimestamp)] in
    nanoseconds at the moment of the call. *)
Definition miniTS (since_base : Z) : Z := Z.quot since_base 1000000000.

(** [(f *TextFormatter) appendKeyValue(b, key, value)]; the unqualified
    [needsQuoting] of the source is the method [f.needsQuoting].  [%q] of
    an error formats the text of its [Error()]. *)
Definition appendKeyValue (f : TextFormatter) (b key : string) (v : value)
  : string :=
  let b := b +:+ key +:+ "=" in
  let b :=
    match v with
    | VString s => if needsQuoting f s then b +:+ s else b +:+ fmt_q rt s
    | VError errmsg =>
        if needsQuoting f errmsg then b +:+ errmsg else b +:+ fmt_q rt errmsg
    | _ => b +:+ fmt_v v
    end in
  b +:+ " ".

(** The [levelColor] chosen by the [switch] of [printColored]; it reads
    through [f.colorScheme], a nil pointer unless [SetColorScheme] was
    called (None: the dereference panics). *)
Definition levelColor_of (f : TextFormatter) (level : Level) : option ColorFunc :=
  match colorScheme f with
  | None => None
  | Some cs =>
      Some (if N.eqb level InfoLevel then InfoLevelColor cs
            else if N.eqb level WarnLevel then WarnLevelColor cs
            else if N.eqb level ErrorLevel then ErrorLevelColor cs
            else if N.eqb level FatalLevel then FatalLevelColor cs
            else if N.eqb level PanicLevel then PanicLevelColor cs
            else DebugLevelColor cs)
  end.

(** [levelText] of [printColored] *)
Definition levelText_of (level : Level) : string :=
  if negb (N.eqb level WarnLevel) then ToUpper (Level_String level)
  else "WARN".

(** [prefix] and [message] of [printColored].  For a [prefix] field the
    source writes [prefixValue+":"] with [prefixValue] an [interface{}];
    it is read here as the value printed by [%v] followed by [:]. *)
Definition prefix_message (cs : compiledColorScheme)
    (data : gmap string value) (msg : string) : string * string :=
  match data !! "prefix" with
  | Some prefixValue =>
      (" " +:+ cf_apply (PrefixColor cs) (fmt_v prefixValue +:+ ":"), msg)
  | None =>
      let (prefixValue, trimmedMsg) := extractPrefix msg in
      if Nat.ltb 0 (String.length prefixValue)
      then (" " +:+ cf_apply (PrefixColor cs) (prefixValue +:+ ":"), trimmedMsg)
      else (EmptyString, msg)
  end.

(** [messageFormat]: ["%s"], or ["%-Ns"] with [N = f.SpacePadding]
    (a negative [N] gives ["%--Ns"], the same left justification).  fmt
    reads the width digit by digit and gives up when the number read so
    far exceeds [1e6] before the next digit, i.e. when [|N| / 10 > 1e6]:
    the verb is then lost, fmt writes [%!(NOVERB)], and the message, an
    unused operand, is reported after it as [%!(EXTRA string=...)]. *)
Definition messageFormat (f : TextFormatter) (message : string) : string :=
  if SpacePadding f =? 0 then message
  else if 1000000 <? Z.abs (SpacePadding f) / 10
  then "%!(NOVERB)%!(EXTRA string=" +:+ message +:+ ")"
  else pad_right (Z.abs_nat (SpacePadding f)) message.

(** The loop over [keys] at the end of [printColored]. *)
Definition colored_fields (lc : ColorFunc) (data : gmap string value)
    (keys : list string) : string :=
  str_concat
    (map (fun k => " " +:+ cf_verb_s lc +:+ k +:+ ansi_Reset rt +:+ "="
                   +:+ fmt_plusv (data_get data k))
         (filter (fun k => k <> "prefix") keys)).

(** [(f *TextFormatter) printColored(b, entry, keys, timestampFormat)];
    [data] is [entry.Data].  In the [Fprintf] calls with a timestamp the
    function [levelColor] itself is the operand of a [%s]. *)
Definition printColored (f : TextFormatter) (entry : Entry)
    (data : gmap string value) (keys : list string) (timestampFormat : string)
    (since_base : Z) (b : string) : option string :=
  match levelColor_of f (ELevel entry), colorScheme f with
  | Some levelColor, Some cs =>
      let levelText := levelText_of (ELevel entry) in
      let (prefix, message) := prefix_message cs data (Message entry) in
      let head :=
        if DisableTimestamp f then
          pad_left 5 (cf_apply levelColor levelText) +:+ prefix +:+ " "
            +:+ messageFormat f message
        else if ShortTimestamp f then
          ansi_LightBlack rt +:+ "[" +:+ fmt_04d (miniTS since_base) +:+ "]"
            +:+ ansi_Reset rt +:+ " " +:+ cf_verb_s levelColor
            +:+ pad_left 5 levelText +:+ ansi_Reset rt +:+ prefix +:+ " "
            +:+ messageFormat f message
        else
          ansi_LightBlack rt +:+ "[" +:+ time_Format rt (Time entry) timestampFormat
            +:+ "]" +:+ ansi_Reset rt +:+ " " +:+ cf_verb_s levelColor
            +:+ pad_left 5 levelText +:+ ansi_Reset rt +:+ prefix +:+ " "
            +:+ messageFormat f message in
      Some (b +:+ head +:+ colored_fields levelColor data keys)
  | _, _ => None
  end.

(** The non-colored branch of [Format]. *)
Definition printPlain (f : TextFormatter) (entry : Entry)
    (data : gmap string value) (keys : list string) (timestampFormat : string)
    (b : string) : string :=
  let b := if negb (DisableTimestamp f)
           then appendKeyValue f b "time"
                  (VString (time_Format rt (Time entry) timestampFormat))
           else b in
  let b := appendKeyValue f b "level" (VString (Level_String (ELevel entry))) in
  let b := if negb (String.eqb (Message entry) EmptyString)
           then appendKeyValue f b "msg" (VString (Message entry))
           else b in
  fold_left (fun b key => appendKeyValue f b key (data_get data key)) keys b.

(** What [Format] leaves behind: its return values (None: the call
    panics), and the two objects it mutates through pointers, the
    formatter and the map [entry.Data], which keep their updates also
    when the call panics. *)
Record FormatResult := {
  fr_ret : option (string * option string);
  fr_formatter : TextFormatter;
  fr_data : gmap string value
}.

(** The key list of [Format], [iter] being the order in which
    [for k := range entry.Data] visits the keys. *)
Definition Format_keys (f : TextFormatter) (iter : list string) : list string :=
  if negb (DisableSorting f) then sort_Strings iter else iter.

(** [isColored] *)
Definition isColored (f : TextFormatter) : bool :=
  (ForceColors f || isTerminal f) && negb (DisableColors f).

(** [timestampFormat] of [Format] *)
Definition timestampFormat_of (f : TextFormatter) : string :=
  if String.eqb (TimestampFormat f) EmptyString then DefaultTimestampFormat
  else TimestampFormat f.

(** [(f *TextFormatter) Format(entry)]; [since_base] is the clock read
    by [miniTS].  The returned error is always nil (None). *)
Definition Format (f : TextFormatter) (entry : Entry) (iter : list string)
    (since_base : Z) : FormatResult :=
  let keys := Format_keys f iter in
  let b := default EmptyString (Buffer entry) in
  let data := prefixFieldClashes (Data entry) in
  let f := once_Do_init f entry in
  let timestampFormat := timestampFormat_of f in
  let out :=
    if isColored f then printColored f entry data keys timestampFormat since_base b
    else Some (printPlain f entry data keys timestampFormat b) in
  {| fr_ret := option_map (fun b => (b +:+ newline, None)) out;
     fr_formatter := f; fr_data := data |}.

End Render.

(* ------------------------------------------------------------------ *)
(** ** Color schemes *)

Record ColorScheme := {
  InfoLevelStyle : string;
  WarnLevelStyle : string;
  ErrorLevelStyle : string;
  FatalLevelStyle : string;
  PanicLevelStyle : string;
  DebugLevelStyle : string;
  PrefixStyle : string;
  TimestampStyle : string
}.

(** The [ColorScheme] literal of the package variable [defaultColorScheme]. *)
Definition defaultColorScheme : ColorScheme := {|
  InfoLevelStyle := "green"; WarnLevelStyle := "yellow";
  ErrorLevelStyle := "red"; FatalLevelStyle := "red"; PanicLevelStyle := "red";
  DebugLevelStyle := "blue"; PrefixStyle := "cyan"; TimestampStyle := "black+h"
|}.

Section ColorSchemes.

(** [ansi.ColorFunc(style)] (from the mgutz/ansi library) *)
Variable ansi_ColorFunc : string -> ColorFunc.

(** [compileColorScheme(s)] *)
Definition compileColorScheme (s : ColorScheme) : compiledColorScheme := {|
  InfoLevelColor := ansi_ColorFunc (InfoLevelStyle s);
  WarnLevelColor := ansi_ColorFunc (WarnLevelStyle s);
  ErrorLevelColor := ansi_ColorFunc (ErrorLevelStyle s);
  FatalLevelColor := ansi_ColorFunc (FatalLevelStyle s);
  PanicLevelColor := ansi_ColorFunc (PanicLevelStyle s);
  DebugLevelColor := ansi_ColorFunc (DebugLevelStyle s);
  PrefixColor := ansi_ColorFunc (PrefixStyle s);
  TimestampColor := ansi_ColorFunc (TimestampStyle s)
|}.

(** [(f *TextFormatter) SetColorScheme(colorScheme)] *)
Definition SetColorScheme (f : TextFormatter) (cs : ColorScheme) : TextFormatter :=
  {| ForceColors := ForceColors f; DisableColors := DisableColors f;
     DisableTimestamp := DisableTimestamp f; FullTimestamp := FullTimestamp f;
     ShortTimestamp := ShortTimestamp f; TimestampFormat := TimestampFormat f;
     DisableSorting := DisableSorting f; QuoteEmptyFields := QuoteEmptyFields f;
     QuoteCharacter := QuoteCharacter f; SpacePadding := SpacePadding f;
     colorScheme := Some (compileColorScheme cs); isTerminal := isTerminal f;
     once_done := once_done f |}.

End ColorSchemes.

(* ------------------------------------------------------------------ *)
(** ** A concrete Go runtime and concrete inputs *)

Definition hex_digit (n : nat) : ascii :=
  if Nat.ltb n 10 then byte (48 + n) else byte (87 + n).

(** [strconv.Quote] on ASCII text (every byte >= 0x80 is escaped as
    [\xNN], which is what Go does for bytes of invalid UTF-8). *)
Fixpoint quote_body (s : string) : string :=
  match s with
  | EmptyString => EmptyString
  | String c s' =>
      let n := nat_of_ascii c in
      let bs := byte 92 in
      let esc :=
        if Nat.eqb n 34 then String bs (String c EmptyString)
        else if Nat.eqb n 92 then String bs (String c EmptyString)
        else if in_range c 32 126 then String c EmptyString
        else if Nat.eqb n 7 then String bs "a"
        else if Nat.eqb n 8 then String bs "b"
        else if Nat.eqb n 12 then String bs "f"
        else if Nat.eqb n 10 then String bs "n"
        else if Nat.eqb n 13 then String bs "r"
        else if Nat.eqb n 9 then String bs "t"
        else if Nat.eqb n 11 then String bs "v"
        else String bs (String "x"%char
               (String (hex_digit (n / 16)) (String (hex_digit (n mod 16)) EmptyString))) in
      esc +:+ quote_body s'
  end.

Definition Quote_ascii (s : string) : string := dquote +:+ quote_body s +:+ dquote.

(** [utf8.RuneCountInString] on valid UTF-8: the bytes that are not
    continuation bytes. *)
Fixpoint rune_count (s : string) : nat :=
  match s with
  | EmptyString => O
  | String c s' => (if in_range c 128 191 then 0 else 1) + rune_count s'
  end.

Definition ESC : string := bytes_string [27%nat].

(** A runtime: [%q] is [Quote_ascii], the instant [t] is printed as its
    number, and the escape codes are those of [mgutz/ansi]. *)
Definition rt_example : GoRuntime := {|
  fmt_q := Quote_ascii;
  time_Format := fun t _ => "T" +:+ N_dec (Z.to_N t);
  RuneCountInString := rune_count;
  ansi_LightBlack := ESC +:+ "[0;90m";
  ansi_Reset := ESC +:+ "[0m"
|}.

(** [&TextFormatter{}] *)
Definition TextFormatter_zero : TextFormatter := {|
  ForceColors := false; DisableColors := false; DisableTimestamp := false;
  FullTimestamp := false; ShortTimestamp := false; TimestampFormat := EmptyString;
  DisableSorting := false; QuoteEmptyFields := false; QuoteCharacter := EmptyString;
  SpacePadding := 0; colorScheme := None; isTerminal := false; once_done := false |}.

(** [ansi.ColorFunc(style)] for a style whose escape code is [code]:
    the empty text is returned as it is. *)
Definition color_func (code : string) : ColorFunc := {|
  cf_apply := fun s => if String.eqb s EmptyString then s else code +:+ s +:+ ESC +:+ "[0m";
  cf_verb_s := "%!s(func(string) string=0x4f2a40)"
|}.

(** [compileColorScheme(defaultColorScheme)] *)
Definition defaultCompiledColorScheme : compiledColorScheme := {|
  InfoLevelColor := color_func (ESC +:+ "[0;32m");
  WarnLevelColor := color_func (ESC +:+ "[0;33m");
  ErrorLevelColor := color_func (ESC +:+ "[0;31m");
  FatalLevelColor := color_func (ESC +:+ "[0;31m");
  PanicLevelColor := color_func (ESC +:+ "[0;31m");
  DebugLevelColor := color_func (ESC +:+ "[0;34m");
  PrefixColor := color_func (ESC +:+ "[0;36m");
  TimestampColor := color_func (ESC +:+ "[0;90m")
|}.

(** [strings.Contains(s, sub)] *)
Fixpoint Contains (s sub : string) : bool :=
  String.prefix sub s ||
  match s with
  | EmptyString => false
  | String _ s' => Contains s' sub
  end.

(* ================================================================== *)
(** * Properties *)

(** The characters the quoting rule lets through unquoted, [A-Za-z0-9.-],
    as a proposition over the byte's code. *)
Definition plain_char (c : ascii) : Prop :=
  let n := nat_of_ascii c in
  (97 <= n <= 122)%nat \/ (65 <= n <= 90)%nat \/ (48 <= n <= 57)%nat \/
  c = "-"%char \/ c = "."%char.

(** Byte-wise strict order of strings (the [<] of Go strings). *)
Definition str_lt (a b : string) : Prop := String.compare a b = Lt.

(** The text one field key [k] contributes to the line: on the colored
    path ([Some levelColor]) and on the plain path ([None]). *)
Definition written_field (rt : GoRuntime) (f : TextFormatter)
    (colored : option ColorFunc) (data : gmap string value) (k : string) : string :=
  match colored with
  | Some lc => " " +:+ cf_verb_s lc +:+ k +:+ ansi_Reset rt +:+ "="
               +:+ fmt_plusv (data_get data k)
  | None => appendKeyValue rt f EmptyString k (data_get data k)
  end.

(** [f] with its field [FullTimestamp] set to [v]. *)
Definition with_FullTimestamp (f : TextFormatter) (v : bool) : TextFormatter :=
  {| ForceColors := ForceColors f; DisableColors := DisableColors f;
     DisableTimestamp := DisableTimestamp f; FullTimestamp := v;
     ShortTimestamp := ShortTimestamp f; TimestampFormat := TimestampFormat f;
     DisableSorting := DisableSorting f; QuoteEmptyFields := QuoteEmptyFields f;
     QuoteCharacter := QuoteCharacter f; SpacePadding := SpacePadding f;
     colorScheme := colorScheme f; isTerminal := isTerminal f;
     once_done := once_done f |}.

(** [&TextFormatter{ForceColors: true}] (no [SetColorScheme]) *)
Definition TextFormatter_forced : TextFormatter :=
  {| ForceColors := true; DisableColors := false; DisableTimestamp := false;
     FullTimestamp := false; ShortTimestamp := false; TimestampFormat := EmptyString;
     DisableSorting := false; QuoteEmptyFields := false;
     QuoteCharacter := EmptyString; SpacePadding := 0; colorScheme := None;
     isTerminal := false; once_done := false |}.

(** [&TextFormatter{ForceColors: true}] after
    [SetColorScheme(&defaultColorScheme)] *)
Definition TextFormatter_colored : TextFormatter :=
  {| ForceColors := true; DisableColors := false; DisableTimestamp := false;
     FullTimestamp := false; ShortTimestamp := false; TimestampFormat := EmptyString;
     DisableSorting := false; QuoteEmptyFields := false;
     QuoteCharacter := EmptyString; SpacePadding := 0;
     colorScheme := Some defaultCompiledColorScheme;
     isTerminal := false; once_done := false |}.

(** An entry without logger or buffer. *)
Definition mk_entry (t : Z) (level : Level) (msg : string)
    (data : gmap string value) : Entry :=
  {| Time := t; ELevel := level; Message := msg; Data := data;
     Buffer := None; Logger := None |}.

(** [f] with its field [QuoteCharacter] set to [q]. *)
Definition with_QuoteCharacter (f : TextFormatter) (q : string) : TextFormatter :=
  {| ForceColors := ForceColors f; DisableColors := DisableColors f;
     DisableTimestamp := DisableTimestamp f; FullTimestamp := FullTimestamp f;
     ShortTimestamp := ShortTimestamp f; TimestampFormat := TimestampFormat f;
     DisableSorting := DisableSorting f; QuoteEmptyFields := QuoteEmptyFields f;
     QuoteCharacter := q; SpacePadding := SpacePadding f;
     colorScheme := colorScheme f; isTerminal := isTerminal f;
     once_done := once_done f |}.

(** [entry] with its field [Buffer] set to [b]. *)
Definition with_Buffer (entry : Entry) (b : option string) : Entry :=
  {| Time := Time entry; ELevel := ELevel entry; Message := Message entry;
     Data := Data entry; Buffer := b; Logger := Logger entry |}.

Lemma in_range_spec c lo hi :
  in_range c lo hi = true <-> (lo <= nat_of_ascii c <= hi)%nat.
Proof.
  unfold in_range. rewrite andb_true_iff, !Nat.leb_le. tauto.
Qed.

Lemma plain_char_bool (ch : ascii) :
  (in_range ch 97 122 || in_range ch 65 90 || in_range ch 48 57 ||
   Ascii.eqb ch "-"%char || Ascii.eqb ch "."%char) = true <-> plain_char ch.
Proof.
  unfold plain_char. rewrite !orb_true_iff, !in_range_spec, !Ascii.eqb_eq.
  tauto.
Qed.

Lemma has_unquotable_spec (text : string) :
  has_unquotable text = true <->
  exists c, c ∈ list_ascii_of_string text /\ ~ plain_char c.
Proof.
  induction text as [|ch rest IH]; simpl.
  - split; [discriminate|]. intros (c & Hc & _). inversion Hc.
  - destruct (in_range ch 97 122 || in_range ch 65 90 || in_range ch 48 57 ||
              Ascii.eqb ch "-"%char || Ascii.eqb ch "."%char) eqn:Hb; simpl.
    + apply plain_char_bool in Hb. rewrite IH. split.
      * intros (c & Hc & Hn). exists c. split; [by apply elem_of_cons; right|done].
      * intros (c & Hc & Hn). apply elem_of_cons in Hc as [->|Hc]; [done|eauto].
    + split; [|done]. intros _. exists ch. split; [apply elem_of_cons; by left|].
      rewrite <- plain_char_bool, Hb. discriminate.
Qed.

(** ** C6: needsQuoting *)

(** C6: [needsQuoting(text)] is true if and only if [QuoteEmptyFields] is
    set and [text] is empty, or [text] contains a character outside
    [A-Za-z0-9.-]; so [needsQuoting("")] is [QuoteEmptyFields],
    [needsQuoting("abc-1.2")] is false and [needsQuoting("a b")] is true. *)
Theorem needsQuoting_iff (f : TextFormatter) (text : string) :
  (needsQuoting f text = true <->
   (QuoteEmptyFields f = true /\ text = EmptyString) \/
   exists c, c ∈ list_ascii_of_string text /\ ~ plain_char c) /\
  needsQuoting f "" = QuoteEmptyFields f /\
  needsQuoting f "abc-1.2" = false /\
  needsQuoting f "a b" = true.
Proof.
  unfold needsQuoting. split; [|split; [|split]].
  - rewrite <- has_unquotable_spec.
    destruct (QuoteEmptyFields f), text; simpl; intuition congruence.
  - destruct (QuoteEmptyFields f); reflexivity.
  - destruct (QuoteEmptyFields f); reflexivity.
  - destruct (QuoteEmptyFields f); reflexivity.
Qed.

(** ** String lemmas *)

(** stdpp blocks [simpl] on [String.append]; the proofs below compute
    with it. *)
#[local] Arguments String.append : simpl nomatch.

Lemma str_app_assoc (a b c : string) : (a +:+ b) +:+ c = a +:+ (b +:+ c).
Proof. induction a; simpl; congruence. Qed.

Lemma str_app_cons (c : ascii) (a b : string) :
  String c a +:+ b = String c (a +:+ b).
Proof. reflexivity. Qed.

Lemma str_app_nil_l (a : string) : EmptyString +:+ a = a.
Proof. reflexivity. Qed.

(** Normalise appends to the right. *)
Ltac str_norm :=
  repeat progress (rewrite ?str_app_assoc, ?str_app_cons, ?str_app_nil_l).

Lemma str_app_nil_r (a : string) : a +:+ EmptyString = a.
Proof. induction a; simpl; congruence. Qed.

Lemma str_length_app (a b : string) :
  String.length (a +:+ b) = (String.length a + String.length b)%nat.
Proof. induction a; simpl; congruence. Qed.

Lemma substring_0_all (s : string) : substring 0 (String.length s) s = s.
Proof. induction s; simpl; congruence. Qed.

Lemma substring_app_l (p s : string) :
  substring 0 (String.length p) (p +:+ s) = p.
Proof. induction p; simpl; [by destruct s|congruence]. Qed.

Lemma substring_app_r (p s : string) :
  substring (String.length p) (String.length (p +:+ s) - String.length p)
    (p +:+ s) = s.
Proof.
  rewrite str_length_app, Nat.add_comm, Nat.add_sub.
  induction p; simpl; [apply substring_0_all|done].
Qed.

Lemma scan_close_app (p rest : string) :
  "]"%char ∉ list_ascii_of_string p -> byte 10 ∉ list_ascii_of_string p ->
  scan_close (p +:+ String "]"%char rest) = Some (String.length p).
Proof.
  induction p as [|c p IH]; simpl; [done|].
  intros Hb Hn. rewrite elem_of_cons in Hb, Hn.
  destruct (Ascii.eqb_spec c "]"%char); [subst; tauto|].
  destruct (Ascii.eqb_spec c (byte 10)); [subst; tauto|].
  rewrite IH; [done| |]; tauto.
Qed.

Lemma scan_close_some (t : string) (i : nat) :
  scan_close t = Some i ->
  exists p rest, t = p +:+ String "]"%char rest /\ String.length p = i.
Proof.
  revert i. induction t as [|c t IH]; simpl; intros i H; [discriminate|].
  destruct (Ascii.eqb_spec c "]"%char) as [->|].
  - injection H as <-. by exists EmptyString, t.
  - destruct (Ascii.eqb c (byte 10)); [discriminate|].
    destruct (scan_close t) as [j|] eqn:Hj; simpl in H; [|discriminate].
    injection H as <-. destruct (IH j eq_refl) as (p & rest & -> & <-).
    by exists (String c p), rest.
Qed.

(** ** C3: extractPrefix *)

(** C3: [extractPrefix] takes a leading non-greedy bracketed token:
    [extractPrefix("[db] connected") = ("db", "connected")],
    [extractPrefix("[a][b] c") = ("a", "[b] c")] and
    [extractPrefix("[a] [b] rest") = ("a", "[b] rest")]; in general a
    message [\[p\]rest] with [p] free of [\]] (and of newlines, which the
    regexp's [.] does not match) gives [p] and the trimmed [rest]; and a
    message that does not start with a bracketed token ([\[], then a [\]]
    somewhere after it) gives the prefix [""] and the message unchanged. *)
Theorem extractPrefix_spec :
  extractPrefix "[db] connected" = ("db", "connected") /\
  extractPrefix "[a][b] c" = ("a", "[b] c") /\
  extractPrefix "[a] [b] rest" = ("a", "[b] rest") /\
  extractPrefix "no brackets" = (EmptyString, "no brackets") /\
  (forall p rest : string,
     "]"%char ∉ list_ascii_of_string p -> byte 10 ∉ list_ascii_of_string p ->
     extractPrefix (String "["%char (p +:+ String "]"%char rest)) =
       (p, TrimSpace rest)) /\
  (forall msg : string,
     ~ (exists p rest, msg = String "["%char (p +:+ String "]"%char rest)) ->
     extractPrefix msg = (EmptyString, msg)).
Proof.
  split; [reflexivity|]. split; [reflexivity|].
  split; [reflexivity|]. split; [reflexivity|]. split.
  - intros p rest Hb Hn.
    assert (Hf : regex_FindString (String "["%char (p +:+ String "]"%char rest))
                 = Some (String "["%char (p +:+ "]"))).
    { unfold regex_FindString. simpl. rewrite scan_close_app by done.
      by rewrite substring_app_l. }
    unfold extractPrefix, regex_MatchString. rewrite Hf. simpl.
    rewrite str_length_app. simpl.
    replace (String.length p + 1 - 0 - 1)%nat with (String.length p) by lia.
    rewrite substring_app_l. f_equal.
    replace (p +:+ String "]"%char rest) with ((p +:+ "]") +:+ rest)
      by (rewrite str_app_assoc; reflexivity).
    replace (String.length p + 1)%nat with (String.length (p +:+ "]"))
      by (rewrite str_length_app; reflexivity).
    by rewrite substring_app_r.
  - intros msg Hno. unfold extractPrefix, regex_MatchString, regex_FindString.
    destruct msg as [|c t]; [done|].
    destruct (Ascii.eqb_spec c "["%char) as [->|]; [|done].
    destruct (scan_close t) as [i|] eqn:Hi; [|done].
    exfalso. apply Hno. destruct (scan_close_some t i Hi) as (p & rest & -> & _).
    by exists p, rest.
Qed.

(** ** C2: quoting branch of appendKeyValue *)

(** C2: for a string value, [appendKeyValue] writes the raw text when
    [needsQuoting] holds for it and the [%q] form when it does not; an
    error value takes the same branch on the text of its [Error()]. *)
Theorem appendKeyValue_quoting_branch (rt : GoRuntime) (f : TextFormatter)
    (b key s : string) :
  (needsQuoting f s = true ->
   appendKeyValue rt f b key (VString s) = b +:+ key +:+ "=" +:+ s +:+ " ") /\
  (needsQuoting f s = false ->
   appendKeyValue rt f b key (VString s) =
     b +:+ key +:+ "=" +:+ fmt_q rt s +:+ " ") /\
  (needsQuoting f s = true ->
   appendKeyValue rt f b key (VError s) = b +:+ key +:+ "=" +:+ s +:+ " ") /\
  (needsQuoting f s = false ->
   appendKeyValue rt f b key (VError s) =
     b +:+ key +:+ "=" +:+ fmt_q rt s +:+ " ").
Proof.
  unfold appendKeyValue.
  repeat split; intros H; rewrite H; rewrite !str_app_assoc; reflexivity.
Qed.

(** ** C9: QuoteCharacter is never read *)

(** C9: two formatters that differ only in [QuoteCharacter] produce the
    same result for every entry (same return values, same map); the value
    of [QuoteCharacter], defaulted by [init], is never read. *)
Theorem Format_QuoteCharacter_irrelevant (rt : GoRuntime) (f : TextFormatter)
    (q : string) (entry : Entry) (iter : list string) (since_base : Z) :
  fr_ret (Format rt (with_QuoteCharacter f q) entry iter since_base) =
    fr_ret (Format rt f entry iter since_base) /\
  fr_data (Format rt (with_QuoteCharacter f q) entry iter since_base) =
    fr_data (Format rt f entry iter since_base).
Proof.
  destruct f as [fc dc dt ft st tf ds qe qc sp cs it od].
  split; [|reflexivity].
  destruct od; reflexivity.
Qed.

(** ** C10: the mutation of entry.Data *)

Lemma clash_lookup (src dst k : string) (d : gmap string value) :
  clash src dst d !! k =
    if String.eqb k dst then
      match d !! src with Some v => Some v | None => d !! k end
    else d !! k.
Proof.
  unfold clash. destruct (String.eqb_spec k dst) as [->|Hne].
  - destruct (d !! src); [by rewrite lookup_insert_eq|done].
  - destruct (d !! src); [by rewrite lookup_insert_ne|done].
Qed.

(** C10 (as amended): after [Format], the map [entry.Data] holds under
    ["fields.time"], ["fields.msg"] and ["fields.level"] a copy of the value
    of ["time"], ["msg"] and ["level"] when that key is present, replacing
    what it held there before; every other key keeps its value, and no key
    is removed. *)
Theorem Format_data_update (rt : GoRuntime) (f : TextFormatter) (entry : Entry)
    (iter : list string) (since_base : Z) (k : string) :
  fr_data (Format rt f entry iter since_base) !! k =
    if String.eqb k "fields.time" then
      match Data entry !! "time" with Some v => Some v | None => Data entry !! k end
    else if String.eqb k "fields.msg" then
      match Data entry !! "msg" with Some v => Some v | None => Data entry !! k end
    else if String.eqb k "fields.level" then
      match Data entry !! "level" with Some v => Some v | None => Data entry !! k end
    else Data entry !! k.
Proof.
  simpl. unfold prefixFieldClashes. rewrite !clash_lookup. simpl.
  destruct (String.eqb k "fields.level") eqn:E1;
  destruct (String.eqb k "fields.msg") eqn:E2;
  destruct (String.eqb k "fields.time") eqn:E3;
  rewrite ?String.eqb_eq in *; subst; try discriminate; reflexivity.
Qed.

(** C10, counterexample: a map that already holds ["fields.time"] loses
    that value when it also holds ["time"]. *)
Lemma Format_data_update_overwrites :
  let entry := mk_entry 42 InfoLevel "hello"
                 (<["fields.time" := VString "b"]> {["time" := VString "a"]}) in
  Data entry !! "fields.time" = Some (VString "b") /\
  fr_data (Format rt_example TextFormatter_zero entry ["fields.time"; "time"] 0)
    !! "fields.time" = Some (VString "a").
Proof. split; vm_compute; reflexivity. Qed.

(** ** C8: the colored path with no color scheme *)

(** Whenever [Format] returns, its error is nil. *)
Lemma Format_err_nil (rt : GoRuntime) (f : TextFormatter) (entry : Entry)
    (iter : list string) (since_base : Z) (out : string) (err : option string) :
  fr_ret (Format rt f entry iter since_base) = Some (out, err) -> err = None.
Proof.
  simpl. destruct (if isColored _ then _ else _); simpl; congruence.
Qed.

(** C8 (code bug): with [ForceColors] set and no [SetColorScheme], the
    field [colorScheme] is nil and [printColored] dereferences it, so
    [Format] panics instead of returning bytes and a nil error; this holds
    for every entry. *)
Theorem Format_forced_colors_panics (rt : GoRuntime) (entry : Entry)
    (iter : list string) (since_base : Z) :
  fr_ret (Format rt TextFormatter_forced entry iter since_base) = None.
Proof. reflexivity. Qed.

(** ** C1: the fields.* copies are never printed *)

(** C1 (code bug): an entry with a user field ["level"] formatted on the
    plain path: the map gains ["fields.level"], but the key list was
    collected before, so the output has no [fields.level=] entry (the user
    value is printed under a second [level=]). *)
Theorem Format_level_field_no_fields_level :
  let entry := mk_entry 42 InfoLevel "hello" {["level" := VString "x"]} in
  let r := Format rt_example TextFormatter_zero entry ["level"] 0 in
  fr_data r !! "fields.level" = Some (VString "x") /\
  exists out,
    fr_ret r = Some (out, None) /\
    Contains out "fields.level=" = false /\
    Contains out ("level=" +:+ dquote +:+ "info" +:+ dquote) = true /\
    Contains out ("level=" +:+ dquote +:+ "x" +:+ dquote) = true.
Proof.
  split; [vm_compute; reflexivity|].
  eexists. split; [vm_compute; reflexivity|].
  split; [|split]; vm_compute; reflexivity.
Qed.

(** ** C4: the timestamp of the colored path *)

(** [Format] never reads [FullTimestamp]. *)
Lemma Format_FullTimestamp_unread (rt : GoRuntime) (f : TextFormatter) (v : bool)
    (entry : Entry) (iter : list string) (since_base : Z) :
  fr_ret (Format rt (with_FullTimestamp f v) entry iter since_base) =
    fr_ret (Format rt f entry iter since_base).
Proof.
  destruct f as [fc dc dt ft st tf ds qe qc sp cs it od].
  destruct od; reflexivity.
Qed.

(** C4 (code bug): on the colored path with [FullTimestamp] false, an
    empty [TimestampFormat] and timestamps enabled, the line starts with
    the absolute time [entry.Time.Format(RFC3339)] in brackets, not with
    the [%04d] seconds counter: the choice is made on [f.ShortTimestamp]. *)
Theorem Format_colored_not_short (rt : GoRuntime) (t since_base : Z) :
  exists rest,
    fr_ret (Format rt TextFormatter_colored (mk_entry t InfoLevel "hello" ∅)
              [] since_base) =
    Some (ansi_LightBlack rt +:+ "[" +:+ time_Format rt t DefaultTimestampFormat
            +:+ "]" +:+ rest, None).
Proof.
  assert (Hp : prefix_message defaultCompiledColorScheme (prefixFieldClashes ∅)
                "hello" = (EmptyString, "hello")) by (vm_compute; reflexivity).
  eexists. cbn. rewrite Hp. cbn. str_norm. reflexivity.
Qed.

(** ** init keeps the formatter's settings *)

Lemma once_Do_init_fields (f : TextFormatter) (entry : Entry) :
  colorScheme (once_Do_init f entry) = colorScheme f /\
  DisableTimestamp (once_Do_init f entry) = DisableTimestamp f /\
  ShortTimestamp (once_Do_init f entry) = ShortTimestamp f /\
  DisableSorting (once_Do_init f entry) = DisableSorting f.
Proof. unfold once_Do_init. by destruct (once_done f). Qed.

(** ** C5: field order *)

Lemma appendKeyValue_app (rt : GoRuntime) (f : TextFormatter) (b key : string)
    (v : value) :
  appendKeyValue rt f b key v = b +:+ appendKeyValue rt f EmptyString key v.
Proof.
  unfold appendKeyValue. destruct v; rewrite ?str_app_assoc; try reflexivity;
  destruct (needsQuoting f _); rewrite ?str_app_assoc; reflexivity.
Qed.

Lemma fold_appendKeyValue (rt : GoRuntime) (f : TextFormatter)
    (data : gmap string value) (keys : list string) (b : string) :
  fold_left (fun b key => appendKeyValue rt f b key (data_get data key)) keys b =
  b +:+ str_concat (map (written_field rt f None data) keys).
Proof.
  revert b. induction keys as [|k keys IH]; intros b; simpl.
  - by rewrite str_app_nil_r.
  - rewrite IH, appendKeyValue_app, str_app_assoc. reflexivity.
Qed.

Lemma str_le_lt (a b : string) : String.le a b -> a <> b -> str_lt a b.
Proof.
  unfold String.le, String.leb, str_lt. intros Hle Hne.
  destruct (String.compare a b) eqn:E; [|done|done].
  apply String.compare_eq_iff in E. done.
Qed.

Lemma StronglySorted_strict (l : list string) :
  StronglySorted String.le l -> NoDup l -> StronglySorted str_lt l.
Proof.
  induction 1 as [|x l Hs IH Hall]; intros Hnd; constructor.
  - apply IH. by apply NoDup_cons in Hnd as [_ ?].
  - apply NoDup_cons in Hnd as [Hx _].
    apply Forall_forall. intros y Hy. apply str_le_lt.
    + by apply (proj1 (Forall_forall _ _) Hall).
    + intros ->. apply Hx. by apply list_elem_of_In.
Qed.

Lemma StronglySorted_filter_str (P : string -> Prop) `{!∀ k, Decision (P k)}
    (l : list string) :
  StronglySorted str_lt l -> StronglySorted str_lt (filter P l).
Proof.
  induction 1 as [|x l Hs IH Hall]; [constructor|].
  rewrite filter_cons. destruct (decide (P x)); [|done].
  constructor; [done|]. apply Forall_forall. intros y Hy.
  apply (proj1 (Forall_forall _ _) Hall).
  by apply list_elem_of_filter in Hy as [_ ?].
Qed.

Lemma sort_Strings_perm (l : list string) : sort_Strings l ≡ₚ l.
Proof. apply merge_sort_Permutation. Qed.

Lemma sort_Strings_sorted (l : list string) : Sorted String.le (sort_Strings l).
Proof. apply Sorted_merge_sort. apply _. Qed.

Lemma sort_Strings_perm_eq (l1 l2 : list string) :
  l1 ≡ₚ l2 -> sort_Strings l1 = sort_Strings l2.
Proof.
  intros Hp. apply (Sorted_unique String.le); [apply sort_Strings_sorted..|].
  by rewrite !sort_Strings_perm.
Qed.

(** C5: with [DisableSorting] false, the line ends with one piece per
    field key, the keys in strictly ascending byte-wise order: every key
    of [entry.Data] on the plain path, every key but ["prefix"] on the
    colored path; and the result does not depend on the order in which
    the map yields its keys. *)
Theorem Format_fields_sorted (rt : GoRuntime) (f : TextFormatter) (entry : Entry)
    (iter : list string) (since_base : Z) (out : string) (err : option string) :
  DisableSorting f = false ->
  iter ≡ₚ elements (dom (Data entry)) ->
  fr_ret (Format rt f entry iter since_base) = Some (out, err) ->
  (exists head colored ks,
     out = head +:+ str_concat
              (map (written_field rt (fr_formatter (Format rt f entry iter since_base))
                      colored (fr_data (Format rt f entry iter since_base))) ks)
            +:+ newline /\
     StronglySorted str_lt ks /\
     (forall k, k ∈ ks <-> k ∈ dom (Data entry) /\ (colored = None \/ k <> "prefix"))) /\
  (forall iter', iter' ≡ₚ iter ->
     Format rt f entry iter' since_base = Format rt f entry iter since_base).
Proof.
  intros Hds Hperm Hr.
  assert (Hk : Format_keys f iter = sort_Strings iter)
    by (unfold Format_keys; by rewrite Hds).
  assert (Hnd : NoDup (sort_Strings iter)).
  { rewrite sort_Strings_perm, Hperm. apply NoDup_elements. }
  assert (Hss : StronglySorted str_lt (sort_Strings iter)).
  { apply StronglySorted_strict; [|done].
    apply Sorted_StronglySorted; [apply _|apply sort_Strings_sorted]. }
  assert (Hin : forall k, k ∈ sort_Strings iter <-> k ∈ dom (Data entry)).
  { intros k. by rewrite sort_Strings_perm, Hperm, elem_of_elements. }
  split.
  - unfold Format in Hr |- *. cbn [fr_ret fr_formatter fr_data] in Hr |- *.
    rewrite Hk in Hr.
    destruct (isColored (once_Do_init f entry)) eqn:Hc.
    + unfold printColored in Hr.
      destruct (levelColor_of (once_Do_init f entry) (ELevel entry)) as [lc|];
        [|discriminate].
      destruct (colorScheme (once_Do_init f entry)) as [cs|]; [|discriminate].
      destruct (prefix_message cs _ _) as [prefix message].
      cbn [option_map] in Hr. injection Hr as <- _.
      match goal with
      | |- context [?b +:+ (?H +:+ colored_fields _ _ _ _)] =>
          exists (b +:+ H), (Some lc),
                 (filter (fun k => k <> "prefix") (sort_Strings iter))
      end.
      split; [|split].
      * rewrite <- (str_app_assoc (default EmptyString (Buffer entry))).
        rewrite str_app_assoc. reflexivity.
      * by apply StronglySorted_filter_str.
      * intros k. rewrite list_elem_of_filter, Hin. naive_solver.
    + cbn [option_map] in Hr. injection Hr as <- _.
      unfold printPlain. rewrite fold_appendKeyValue.
      eexists _, None, (sort_Strings iter). split; [|split].
      * rewrite str_app_assoc. reflexivity.
      * done.
      * intros k. rewrite Hin. naive_solver.
  - intros iter' Hp. unfold Format.
    assert (Hk' : Format_keys f iter' = Format_keys f iter).
    { unfold Format_keys. rewrite Hds. simpl. by apply sort_Strings_perm_eq. }
    by rewrite Hk'.
Qed.

(** C5, witness: three fields listed in an unsorted order. *)
Lemma Format_fields_sorted_witness :
  let entry := mk_entry 42 InfoLevel "hello"
                 (<["b" := VString "2"]> (<["c" := VString "3"]>
                    {["a" := VString "1"]})) in
  exists out,
    fr_ret (Format rt_example TextFormatter_zero entry ["c"; "a"; "b"] 0)
      = Some (out, None) /\
    (exists head colored ks,
       out = head +:+ str_concat
                (map (written_field rt_example
                        (fr_formatter (Format rt_example TextFormatter_zero entry
                                         ["c"; "a"; "b"] 0))
                        colored
                        (fr_data (Format rt_example TextFormatter_zero entry
                                    ["c"; "a"; "b"] 0))) ks)
              +:+ newline /\
       StronglySorted str_lt ks /\
       (forall k, k ∈ ks <-> k ∈ dom (Data entry) /\ (colored = None \/ k <> "prefix"))) /\
    (forall iter', iter' ≡ₚ ["c"; "a"; "b"] ->
       Format rt_example TextFormatter_zero entry iter' 0 =
       Format rt_example TextFormatter_zero entry ["c"; "a"; "b"] 0).
Proof.
  eexists. split; [vm_compute; reflexivity|].
  apply (Format_fields_sorted rt_example TextFormatter_zero
           (mk_entry 42 InfoLevel "hello"
              (<["b" := VString "2"]> (<["c" := VString "3"]> {["a" := VString "1"]})))
           ["c"; "a"; "b"] 0 _ None).
  - reflexivity.
  - apply (bool_decide_unpack _). vm_compute. exact I.
  - vm_compute. reflexivity.
Defined.

(* ================================================================== *)
(** * Further properties of the code *)

(** ** When Format panics *)

Lemma isColored_SetColorScheme (ansi_ColorFunc : string -> ColorFunc)
    (f : TextFormatter) (cs : ColorScheme) (entry : Entry) :
  isColored (once_Do_init (SetColorScheme ansi_ColorFunc f cs) entry) =
  isColored (once_Do_init f entry).
Proof. unfold once_Do_init. cbn [once_done SetColorScheme]. by destruct (once_done f). Qed.

(** X1: on the colored path (where field values reach the output only
    through fmt, which recovers from panics in their methods), [Format]
    panics exactly when no color scheme was set; when it returns, the
    error is nil; and after [SetColorScheme], with any scheme, it returns. *)
Theorem Format_colored_panics_iff (rt : GoRuntime) (f : TextFormatter)
    (entry : Entry) (iter : list string) (since_base : Z) :
  isColored (once_Do_init f entry) = true ->
  (fr_ret (Format rt f entry iter since_base) = None <-> colorScheme f = None) /\
  (forall out err, fr_ret (Format rt f entry iter since_base) = Some (out, err) ->
     err = None) /\
  (forall (ansi_ColorFunc : string -> ColorFunc) (cs : ColorScheme),
     exists out,
       fr_ret (Format rt (SetColorScheme ansi_ColorFunc f cs) entry iter since_base)
         = Some (out, None)).
Proof.
  intros Hc. split; [|split].
  - destruct (once_Do_init_fields f entry) as (Hcs & _).
    unfold Format. cbn [fr_ret]. rewrite Hc.
    unfold printColored, levelColor_of. rewrite Hcs.
    destruct (colorScheme f) as [cs|]; [|tauto].
    destruct (prefix_message cs _ _). cbn [option_map].
    split; [discriminate|intros ?; discriminate].
  - intros out err. apply Format_err_nil.
  - intros ansi_ColorFunc cs.
    set (g := SetColorScheme ansi_ColorFunc f cs).
    destruct (once_Do_init_fields g entry) as (Hcs & _).
    assert (Hg : isColored (once_Do_init g entry) = true)
      by (unfold g; by rewrite isColored_SetColorScheme).
    unfold Format. cbn [fr_ret]. rewrite Hg.
    unfold printColored, levelColor_of. rewrite Hcs. cbn [colorScheme g SetColorScheme].
    destruct (prefix_message _ _ _). cbn [option_map]. eauto.
Qed.

(** X1, witness: a forced-color formatter with the default scheme. *)
Lemma Format_colored_panics_iff_witness :
  let entry := mk_entry 0 InfoLevel "hi" ∅ in
  isColored (once_Do_init TextFormatter_colored entry) = true /\
  (fr_ret (Format rt_example TextFormatter_colored entry [] 0) = None <->
     colorScheme TextFormatter_colored = None) /\
  (forall out err, fr_ret (Format rt_example TextFormatter_colored entry [] 0)
                     = Some (out, err) -> err = None) /\
  (forall (ansi_ColorFunc : string -> ColorFunc) (cs : ColorScheme),
     exists out,
       fr_ret (Format rt_example (SetColorScheme ansi_ColorFunc TextFormatter_colored cs)
                 entry [] 0) = Some (out, None)).
Proof.
  split; [reflexivity|].
  apply (Format_colored_panics_iff rt_example TextFormatter_colored
           (mk_entry 0 InfoLevel "hi" ∅) [] 0).
  reflexivity.
Defined.

(** ** sync.Once *)

(** X3: [init] runs once: after a first [Format] call the formatter is
    marked initialised, and every later call leaves it exactly as it is,
    whatever the entry (a later entry's logger does not change
    [isTerminal] any more). *)
Theorem Format_init_once (rt : GoRuntime) (f : TextFormatter)
    (e1 e2 : Entry) (i1 i2 : list string) (c1 c2 : Z) :
  let f1 := fr_formatter (Format rt f e1 i1 c1) in
  once_done f1 = true /\ fr_formatter (Format rt f1 e2 i2 c2) = f1.
Proof.
  cbn [fr_formatter Format]. unfold once_Do_init.
  destruct (once_done f) eqn:Hd; cbn [once_done]; rewrite ?Hd; auto.
Qed.

(** ** prefixFieldClashes *)

(** X4: [prefixFieldClashes] is idempotent: applying it to a map it has
    already updated changes nothing, so formatting the same entry again
    does not alter [entry.Data] further. *)
Theorem prefixFieldClashes_idempotent (d : gmap string value) :
  prefixFieldClashes (prefixFieldClashes d) = prefixFieldClashes d.
Proof.
  apply map_eq. intros k. unfold prefixFieldClashes. rewrite !clash_lookup.
  cbn.
  destruct (String.eqb k "fields.level") eqn:E1;
  destruct (String.eqb k "fields.msg") eqn:E2;
  destruct (String.eqb k "fields.time") eqn:E3;
  rewrite ?String.eqb_eq in *; subst; try discriminate;
  repeat case_match; congruence.
Qed.

(** ** extractPrefix and TrimSpace *)

Lemma scan_close_first (t : string) (i : nat) :
  scan_close t = Some i ->
  exists p rest, t = p +:+ String "]"%char rest /\ String.length p = i /\
    ("]"%char ∉ list_ascii_of_string p) /\ (byte 10 ∉ list_ascii_of_string p).
Proof.
  revert i. induction t as [|c t IH]; simpl; intros i H; [discriminate|].
  destruct (Ascii.eqb_spec c "]"%char) as [->|Hb].
  - injection H as <-. exists EmptyString, t. simpl.
    split; [done|]. split; [done|]. split; apply not_elem_of_nil.
  - destruct (Ascii.eqb_spec c (byte 10)) as [|Hn]; [discriminate|].
    destruct (scan_close t) as [j|] eqn:Hj; simpl in H; [|discriminate].
    injection H as <-. destruct (IH j eq_refl) as (p & rest & -> & <- & Hp1 & Hp2).
    exists (String c p), rest. simpl. rewrite !elem_of_cons.
    split; [done|]. split; [done|].
    split; intros [Heq|?]; [subst; congruence|auto|subst; congruence|auto].
Qed.

Lemma extractPrefix_token (p rest : string) :
  "]"%char ∉ list_ascii_of_string p -> byte 10 ∉ list_ascii_of_string p ->
  extractPrefix (String "["%char (p +:+ String "]"%char rest)) = (p, TrimSpace rest).
Proof.
  intros Hb Hn.
  assert (Hf : regex_FindString (String "["%char (p +:+ String "]"%char rest))
               = Some (String "["%char (p +:+ "]"))).
  { unfold regex_FindString. simpl. rewrite scan_close_app by done.
    by rewrite substring_app_l. }
  unfold extractPrefix, regex_MatchString. rewrite Hf. simpl.
  rewrite str_length_app. simpl.
  replace (String.length p + 1 - 0 - 1)%nat with (String.length p) by lia.
  rewrite substring_app_l. f_equal.
  replace (p +:+ String "]"%char rest) with ((p +:+ "]") +:+ rest)
    by (rewrite str_app_assoc; reflexivity).
  replace (String.length p + 1)%nat with (String.length (p +:+ "]"))
    by (rewrite str_length_app; reflexivity).
  by rewrite substring_app_r.
Qed.

(** X5: [extractPrefix] either leaves the message as it is with an empty
    prefix, or the message is [\[p\]rest] where [p], the prefix returned,
    holds neither [\]] nor a newline (the first [\]] closes the token),
    and the message returned is [TrimSpace(rest)]. *)
Theorem extractPrefix_cases (msg : string) :
  extractPrefix msg = (EmptyString, msg) \/
  exists p rest,
    msg = String "["%char (p +:+ String "]"%char rest) /\
    ("]"%char ∉ list_ascii_of_string p) /\ (byte 10 ∉ list_ascii_of_string p) /\
    extractPrefix msg = (p, TrimSpace rest).
Proof.
  destruct msg as [|c t]; [by left|].
  destruct (Ascii.eqb_spec c "["%char) as [->|Hc].
  - destruct (scan_close t) as [i|] eqn:Hi.
    + right. destruct (scan_close_first t i Hi) as (p & rest & -> & _ & Hb & Hn).
      exists p, rest. split; [done|]. split; [done|]. split; [done|].
      by apply extractPrefix_token.
    + left. unfold extractPrefix, regex_MatchString, regex_FindString.
      simpl. by rewrite Hi.
  - left. unfold extractPrefix, regex_MatchString, regex_FindString.
    destruct (Ascii.eqb_spec c "["%char); [done|reflexivity].
Qed.

Lemma str_rev_app_acc (s1 s2 : string) :
  String.rev_app s1 s2 = String.rev_app s1 EmptyString +:+ s2.
Proof.
  revert s2. induction s1 as [|c s1 IH]; intros s2; simpl; [done|].
  rewrite IH, (IH (String c EmptyString)), str_app_assoc. reflexivity.
Qed.

Lemma str_rev_cons (c : ascii) (s : string) :
  str_rev (String c s) = str_rev s +:+ String c EmptyString.
Proof. unfold str_rev, String.rev. simpl. apply str_rev_app_acc. Qed.

Lemma str_rev_app (a b : string) : str_rev (a +:+ b) = str_rev b +:+ str_rev a.
Proof.
  induction a as [|c a IH]; simpl.
  - unfold str_rev at 3. simpl. by rewrite str_app_nil_r.
  - rewrite !str_rev_cons, IH, str_app_assoc. reflexivity.
Qed.

Lemma str_rev_involutive (s : string) : str_rev (str_rev s) = s.
Proof.
  induction s as [|c s IH]; [reflexivity|].
  rewrite str_rev_cons, str_rev_app, IH. reflexivity.
Qed.

Lemma prefix_iff (e s : string) :
  String.prefix e s = true <-> exists z, s = e +:+ z.
Proof.
  revert s. induction e as [|c e IH]; intros [|d s]; cbn [String.prefix].
  - split; [intros _; by exists EmptyString|done].
  - split; [intros _; by exists (String d s)|done].
  - split; [discriminate|intros [z Hz]; discriminate].
  - destruct (ascii_dec c d) as [->|Hcd].
    + rewrite IH. split; intros [z Hz]; exists z; [by rewrite Hz|by injection Hz].
    + split; [discriminate|intros [z Hz]; injection Hz; congruence].
Qed.

Lemma is_suffix_iff (e s : string) :
  is_suffix e s = true <-> exists a, s = a +:+ e.
Proof.
  unfold is_suffix. rewrite prefix_iff. split.
  - intros [z Hz]. exists (str_rev z).
    rewrite <- (str_rev_involutive s), Hz, str_rev_app, str_rev_involutive.
    reflexivity.
  - intros [a ->]. exists (str_rev a). apply str_rev_app.
Qed.

Lemma space_encodings_nonempty (e : string) :
  e ∈ space_encodings -> (0 < String.length e)%nat.
Proof.
  revert e. apply Forall_forall.
  apply (bool_decide_unpack _). vm_compute. exact I.
Qed.

Lemma str_concat_app (l1 l2 : list string) :
  str_concat (l1 ++ l2) = str_concat l1 +:+ str_concat l2.
Proof.
  induction l1 as [|x l1 IH]; simpl; [done|].
  rewrite IH, str_app_assoc. reflexivity.
Qed.

Lemma trim_left_go_spec (n : nat) (s : string) :
  (String.length s <= n)%nat ->
  exists la,
    Forall (fun e => e ∈ space_encodings) la /\
    s = str_concat la +:+ trim_left_go n s /\
    forall e, e ∈ space_encodings -> ~ exists z, trim_left_go n s = e +:+ z.
Proof.
  revert s. induction n as [|n IH]; intros s Hs; cbn [trim_left_go trim_right_go].
  - destruct s; simpl in Hs; [|lia].
    exists []. split; [constructor|]. split; [done|].
    intros e He [z Hz]. apply space_encodings_nonempty in He.
    apply (f_equal String.length) in Hz. rewrite str_length_app in Hz.
    simpl in Hz. lia.
  - destruct (List.find (fun p => String.prefix p s) space_encodings) as [p|] eqn:Hf.
    + apply List.find_some in Hf as [Hin Hp].
      apply list_elem_of_In in Hin.
      apply prefix_iff in Hp as [z ->].
      rewrite substring_app_r.
      pose proof (space_encodings_nonempty p Hin).
      rewrite str_length_app in Hs.
      destruct (IH z) as (la & Hla & Hz & Hno); [lia|].
      exists (p :: la). split; [by constructor|]. split; [|done].
      simpl. rewrite str_app_assoc, <- Hz. reflexivity.
    + exists []. split; [constructor|]. split; [done|].
      intros e He Hz. apply prefix_iff in Hz.
      apply list_elem_of_In in He.
      rewrite (List.find_none _ _ Hf e He) in Hz. discriminate.
Qed.

Lemma trim_right_go_spec (n : nat) (s : string) :
  (String.length s <= n)%nat ->
  exists lb,
    Forall (fun e => e ∈ space_encodings) lb /\
    s = trim_right_go n s +:+ str_concat lb /\
    forall e, e ∈ space_encodings -> ~ exists z, trim_right_go n s = z +:+ e.
Proof.
  revert s. induction n as [|n IH]; intros s Hs; cbn [trim_left_go trim_right_go].
  - destruct s; simpl in Hs; [|lia].
    exists []. split; [constructor|]. split; [done|].
    intros e He [z Hz]. apply space_encodings_nonempty in He.
    apply (f_equal String.length) in Hz. rewrite str_length_app in Hz.
    simpl in Hz. lia.
  - destruct (List.find (fun p => is_suffix p s) space_encodings) as [p|] eqn:Hf.
    + apply List.find_some in Hf as [Hin Hp].
      apply list_elem_of_In in Hin.
      apply is_suffix_iff in Hp as [a ->].
      rewrite str_length_app, Nat.add_sub, substring_app_l.
      pose proof (space_encodings_nonempty p Hin).
      rewrite str_length_app in Hs.
      destruct (IH a) as (lb & Hlb & Ha & Hno); [lia|].
      exists (lb ++ [p]). split; [apply Forall_app; split; [done|by constructor]|].
      split; [|done].
      rewrite str_concat_app. simpl. rewrite str_app_nil_r.
      rewrite <- str_app_assoc, <- Ha. reflexivity.
    + exists []. split; [constructor|]. split; [simpl; by rewrite str_app_nil_r|].
      intros e He Hz. apply is_suffix_iff in Hz.
      apply list_elem_of_In in He.
      rewrite (List.find_none _ _ Hf e He) in Hz. discriminate.
Qed.

(** X6: [strings.TrimSpace] removes only white space, from both ends,
    and what it returns neither starts nor ends with a white-space rune
    (among them the empty string, for a text made of white space). *)
Theorem TrimSpace_spec (s : string) :
  exists la lb,
    Forall (fun e => e ∈ space_encodings) la /\
    Forall (fun e => e ∈ space_encodings) lb /\
    s = str_concat la +:+ TrimSpace s +:+ str_concat lb /\
    forall e, e ∈ space_encodings ->
      (~ exists z, TrimSpace s = e +:+ z) /\ (~ exists z, TrimSpace s = z +:+ e).
Proof.
  unfold TrimSpace.
  destruct (trim_left_go_spec (String.length s) s) as (la & Hla & Hs & Hl); [done|].
  set (l := trim_left_go (String.length s) s) in *.
  destruct (trim_right_go_spec (String.length l) l) as (lb & Hlb & Hr & Hrr); [done|].
  set (r := trim_right_go (String.length l) l) in *.
  exists la, lb. split; [done|]. split; [done|]. split.
  - rewrite Hs at 1. rewrite Hr at 1. reflexivity.
  - intros e He. split; [|by apply Hrr].
    intros [z Hz]. apply (Hl e He). exists (z +:+ str_concat lb).
    rewrite Hr, Hz, str_app_assoc. reflexivity.
Qed.

(** ** The prefix segment of the colored path *)

(** X7: on the colored path, with no ["prefix"] field, a message
    [\[p\]rest] (with [p] free of [\]] and newlines) is printed as the
    prefix segment [" " + PrefixColor(p + ":")] followed by
    [TrimSpace(rest)]; but an empty token [\[\]] gives no prefix segment
    and the message is printed unchanged, brackets included. *)
Theorem prefix_message_token (cs : compiledColorScheme) (data : gmap string value)
    (p rest : string) :
  data !! "prefix" = None ->
  ("]"%char ∉ list_ascii_of_string p) -> (byte 10 ∉ list_ascii_of_string p) ->
  prefix_message cs data (String "["%char (p +:+ String "]"%char rest)) =
    if String.eqb p EmptyString
    then (EmptyString, String "["%char (p +:+ String "]"%char rest))
    else (" " +:+ cf_apply (PrefixColor cs) (p +:+ ":"), TrimSpace rest).
Proof.
  intros Hd Hb Hn. unfold prefix_message. rewrite Hd, extractPrefix_token by done.
  by destruct p.
Qed.

(** X7, witness: the message ["[db] up"] with no ["prefix"] field. *)
Lemma prefix_message_token_witness :
  prefix_message defaultCompiledColorScheme ∅ (String "["%char ("db" +:+ String "]"%char " up")) =
    if String.eqb "db" EmptyString
    then (EmptyString, String "["%char ("db" +:+ String "]"%char " up"))
    else (" " +:+ cf_apply (PrefixColor defaultCompiledColorScheme) ("db" +:+ ":"),
          TrimSpace " up").
Proof.
  apply prefix_message_token; [reflexivity| |];
    apply (bool_decide_unpack _); vm_compute; exact I.
Defined.

(** ** Level names *)

(** [Level.String] never needs quoting. *)
Lemma Level_String_unquoted (f : TextFormatter) (level : Level) :
  needsQuoting f (Level_String level) = false.
Proof.
  unfold needsQuoting, Level_String.
  destruct (QuoteEmptyFields f);
  repeat match goal with |- context [N.eqb ?a ?b] => destruct (N.eqb a b) end;
  reflexivity.
Qed.

(** The names of a level above [DebugLevel]. *)
Lemma unknown_level_names (f : TextFormatter) (level : Level) :
  (DebugLevel < level)%N ->
  Level_String level = "unknown" /\
  levelText_of level = "UNKNOWN" /\
  levelColor_of f level = option_map DebugLevelColor (colorScheme f).
Proof.
  unfold DebugLevel. intros Hl.
  assert (H : forall k, (k <= 5)%N -> N.eqb level k = false)
    by (intros k Hk; apply N.eqb_neq; lia).
  unfold levelText_of, levelColor_of, Level_String, DebugLevel, InfoLevel, WarnLevel,
    ErrorLevel, FatalLevel, PanicLevel.
  rewrite !H by lia. split; [done|]. split; [reflexivity|].
  by destruct (colorScheme f).
Qed.

(** ** The layout of the plain line *)

(** Rewrites [appendKeyValue] on a non-empty buffer into an append. *)
Ltac akv_norm :=
  repeat match goal with
  | |- context [appendKeyValue ?rt ?f ?b ?k ?v] =>
      lazymatch b with
      | EmptyString => fail
      | _ => rewrite (appendKeyValue_app rt f b k v)
      end
  end.

Lemma printPlain_layout (rt : GoRuntime) (f : TextFormatter) (entry : Entry)
    (data : gmap string value) (keys : list string) (tf b : string) :
  printPlain rt f entry data keys tf b =
    b +:+ (if DisableTimestamp f then EmptyString
           else appendKeyValue rt f EmptyString "time"
                  (VString (time_Format rt (Time entry) tf)))
      +:+ appendKeyValue rt f EmptyString "level" (VString (Level_String (ELevel entry)))
      +:+ (if String.eqb (Message entry) EmptyString then EmptyString
           else appendKeyValue rt f EmptyString "msg" (VString (Message entry)))
      +:+ str_concat (map (written_field rt f None data) keys).
Proof.
  unfold printPlain. rewrite fold_appendKeyValue.
  destruct (DisableTimestamp f), (String.eqb (Message entry) EmptyString);
    cbn [negb]; akv_norm; str_norm; reflexivity.
Qed.

Lemma appendKeyValue_once (rt : GoRuntime) (f : TextFormatter) (entry : Entry)
    (b k : string) (v : value) :
  appendKeyValue rt (once_Do_init f entry) b k v = appendKeyValue rt f b k v.
Proof. unfold once_Do_init. by destruct (once_done f). Qed.

Lemma timestampFormat_once (f : TextFormatter) (entry : Entry) :
  timestampFormat_of (once_Do_init f entry) = timestampFormat_of f.
Proof. unfold once_Do_init. by destruct (once_done f). Qed.



(** ** entry.Buffer *)

Lemma printColored_app (rt : GoRuntime) (f : TextFormatter) (entry : Entry)
    (data : gmap string value) (keys : list string) (tf : string) (since_base : Z)
    (b : string) :
  printColored rt f entry data keys tf since_base b =
    option_map (String.append b)
      (printColored rt f entry data keys tf since_base EmptyString).
Proof.
  unfold printColored.
  destruct (levelColor_of f (ELevel entry)), (colorScheme f) as [cs|]; try done.
  destruct (prefix_message cs data (Message entry)).
  destruct (DisableTimestamp f), (ShortTimestamp f); reflexivity.
Qed.

(** X10: [Format] writes after what [entry.Buffer] already holds: with a
    buffer holding [p] the bytes returned are [p] followed by the bytes
    returned for the same entry without a buffer (and it panics in the
    same cases). *)
Theorem Format_Buffer_prepend (rt : GoRuntime) (f : TextFormatter) (entry : Entry)
    (iter : list string) (since_base : Z) (p : string) :
  fr_ret (Format rt f (with_Buffer entry (Some p)) iter since_base) =
    option_map (fun r => (p +:+ fst r, snd r))
      (fr_ret (Format rt f (with_Buffer entry None) iter since_base)).
Proof.
  unfold Format. cbn [fr_ret Buffer with_Buffer default].
  change (once_Do_init f (with_Buffer entry (Some p)))
    with (once_Do_init f (with_Buffer entry None)).
  destruct (isColored (once_Do_init f (with_Buffer entry None))).
  - rewrite printColored_app.
    destruct (printColored _ _ _ _ _ _ _ EmptyString); [|reflexivity].
    cbn [option_map fst snd]. by rewrite str_app_assoc.
  - rewrite (printPlain_layout _ _ _ _ _ _ p),
            (printPlain_layout _ _ _ _ _ _ EmptyString).
    cbn [option_map fst snd]. rewrite str_app_nil_l, !str_app_assoc. reflexivity.
Qed.

(** ** The level column *)

(** The start of a colored line: the buffer's content, then either the
    styled level text (timestamps disabled), or the timestamp in brackets,
    the level's color function printed by [%s] and the bare level text. *)
Lemma Format_colored_head (rt : GoRuntime) (f : TextFormatter) (entry : Entry)
    (iter : list string) (since_base : Z) (out : string) (err : option string) :
  isColored (once_Do_init f entry) = true ->
  fr_ret (Format rt f entry iter since_base) = Some (out, err) ->
  exists cs lc post,
    colorScheme f = Some cs /\ levelColor_of f (ELevel entry) = Some lc /\
    out = default EmptyString (Buffer entry) +:+
      (if DisableTimestamp f
       then pad_left rt 5 (cf_apply lc (levelText_of (ELevel entry)))
       else ansi_LightBlack rt +:+ "[" +:+
              (if ShortTimestamp f then fmt_04d (miniTS since_base)
               else time_Format rt (Time entry) (timestampFormat_of f))
            +:+ "]" +:+ ansi_Reset rt +:+ " " +:+ cf_verb_s lc
            +:+ pad_left rt 5 (levelText_of (ELevel entry)) +:+ ansi_Reset rt)
      +:+ post.
Proof.
  intros Hc Hr. destruct (once_Do_init_fields f entry) as (Hcs & Hdt & Hst & _).
  unfold Format in Hr. cbn [fr_ret] in Hr. rewrite Hc in Hr.
  unfold printColored in Hr.
  assert (Hl : levelColor_of (once_Do_init f entry) (ELevel entry)
               = levelColor_of f (ELevel entry))
    by (unfold levelColor_of; by rewrite Hcs).
  rewrite Hl, Hcs, Hdt, Hst, timestampFormat_once in Hr.
  destruct (levelColor_of f (ELevel entry)) as [lc|]; [|discriminate].
  destruct (colorScheme f) as [cs|]; [|discriminate].
  destruct (prefix_message cs _ _) as [prefix message].
  exists cs, lc.
  destruct (DisableTimestamp f), (ShortTimestamp f); simpl in Hr;
    injection Hr as <- _; eexists; (split; [reflexivity|]); (split; [reflexivity|]);
    str_norm; reflexivity.
Qed.

(** The plain line, as in X9. *)
Lemma Format_plain_out (rt : GoRuntime) (f : TextFormatter) (entry : Entry)
    (iter : list string) (since_base : Z) :
  isColored (once_Do_init f entry) = false ->
  fr_ret (Format rt f entry iter since_base) =
    Some (default EmptyString (Buffer entry)
          +:+ (if DisableTimestamp f then EmptyString
               else appendKeyValue rt f EmptyString "time"
                      (VString (time_Format rt (Time entry) (timestampFormat_of f))))
          +:+ "level=" +:+ fmt_q rt (Level_String (ELevel entry)) +:+ " "
          +:+ (if String.eqb (Message entry) EmptyString then EmptyString
               else appendKeyValue rt f EmptyString "msg" (VString (Message entry)))
          +:+ str_concat (map (written_field rt f None (prefixFieldClashes (Data entry)))
                            (Format_keys f iter))
          +:+ newline, None).
Proof.
  intros Hc. destruct (once_Do_init_fields f entry) as (_ & Hdt & _).
  unfold Format. cbn [fr_ret]. rewrite Hc. cbn [option_map].
  rewrite printPlain_layout, Hdt, timestampFormat_once, !appendKeyValue_once.
  rewrite (map_ext (written_field rt (once_Do_init f entry) None _)
                   (written_field rt f None (prefixFieldClashes (Data entry))))
    by (intros k; apply appendKeyValue_once).
  unfold appendKeyValue at 2. rewrite Level_String_unquoted.
  str_norm. reflexivity.
Qed.

(** ** C7: the level text of Warn entries *)




(** ** Unknown levels *)

(** X8: for a level above [DebugLevel] (unknown to this logrus), on the
    colored path the level column is the text ["UNKNOWN"], styled with the
    Debug color when timestamps are disabled, and otherwise written bare
    after the bracketed timestamp and the Debug color function printed by
    [%s]; on the plain path the line has [level=] with the quoted name
    ["unknown"]. *)
Theorem Format_unknown_level (rt : GoRuntime) (f : TextFormatter) (entry : Entry)
    (iter : list string) (since_base : Z) (out : string) (err : option string) :
  (DebugLevel < ELevel entry)%N ->
  fr_ret (Format rt f entry iter since_base) = Some (out, err) ->
  (isColored (once_Do_init f entry) = true ->
   exists cs post,
     colorScheme f = Some cs /\
     out = default EmptyString (Buffer entry) +:+
       (if DisableTimestamp f
        then pad_left rt 5 (cf_apply (DebugLevelColor cs) "UNKNOWN")
        else ansi_LightBlack rt +:+ "[" +:+
               (if ShortTimestamp f then fmt_04d (miniTS since_base)
                else time_Format rt (Time entry) (timestampFormat_of f))
             +:+ "]" +:+ ansi_Reset rt +:+ " " +:+ cf_verb_s (DebugLevelColor cs)
             +:+ pad_left rt 5 "UNKNOWN" +:+ ansi_Reset rt)
       +:+ post) /\
  (isColored (once_Do_init f entry) = false ->
   exists post,
     out = default EmptyString (Buffer entry) +:+
       (if DisableTimestamp f then EmptyString
        else appendKeyValue rt f EmptyString "time"
               (VString (time_Format rt (Time entry) (timestampFormat_of f))))
       +:+ "level=" +:+ fmt_q rt "unknown" +:+ " " +:+ post).
Proof.
  intros Hl Hr. destruct (unknown_level_names f (ELevel entry) Hl) as (Hs & Ht & Hc').
  split; intros Hc.
  - destruct (Format_colored_head rt f entry iter since_base out err Hc Hr)
      as (cs & lc & post & Hcs & Hlc & ->).
    rewrite Hc', Hcs in Hlc. injection Hlc as <-.
    exists cs, post. split; [done|]. rewrite Ht. reflexivity.
  - rewrite (Format_plain_out rt f entry iter since_base Hc) in Hr.
    injection Hr as <- _. rewrite Hs. eexists. str_norm. reflexivity.
Qed.

(** X8, witness: level 6 (logrus' later [TraceLevel]) on the colored path. *)
Lemma Format_unknown_level_witness :
  let entry := mk_entry 0 6%N "hi" ∅ in
  let f := TextFormatter_colored in
  exists out,
    (DebugLevel < ELevel entry)%N /\
    fr_ret (Format rt_example f entry [] 0) = Some (out, None) /\
    (isColored (once_Do_init f entry) = true ->
     exists cs post,
       colorScheme f = Some cs /\
       out = default EmptyString (Buffer entry) +:+
         (if DisableTimestamp f
          then pad_left rt_example 5 (cf_apply (DebugLevelColor cs) "UNKNOWN")
          else ansi_LightBlack rt_example +:+ "[" +:+
                 (if ShortTimestamp f then fmt_04d (miniTS 0)
                  else time_Format rt_example (Time entry) (timestampFormat_of f))
               +:+ "]" +:+ ansi_Reset rt_example +:+ " "
               +:+ cf_verb_s (DebugLevelColor cs)
               +:+ pad_left rt_example 5 "UNKNOWN" +:+ ansi_Reset rt_example)
         +:+ post) /\
    (isColored (once_Do_init f entry) = false ->
     exists post,
       out = default EmptyString (Buffer entry) +:+
         (if DisableTimestamp f then EmptyString
          else appendKeyValue rt_example f EmptyString "time"
                 (VString (time_Format rt_example (Time entry) (timestampFormat_of f))))
         +:+ "level=" +:+ fmt_q rt_example "unknown" +:+ " " +:+ post).
Proof.
  eexists. split; [unfold DebugLevel; simpl; lia|].
  split; [vm_compute; reflexivity|].
  apply (Format_unknown_level rt_example TextFormatter_colored
           (mk_entry 0 6%N "hi" ∅) [] 0 _ None);
    [unfold DebugLevel; simpl; lia | vm_compute; reflexivity].
Defined.
